(** * Ghost Desktop: the quick switcher component (app/components/gh-switcher.js)

    A shallow embedding of the component: the blog objects it holds
    references to, the derived [sortedBlogs] sequence, the three binders run
    at every render, the store-backed operations and the component's actions.
    Calls to the collaborators (store, window menu, native menu, parent
    actions) are events of a small free monad; a run against an environment
    yields the log of the calls made, in order. *)

From Stdlib Require Import Ascii String.
From stdpp Require Import base decidable option list functions gmap strings pretty sorting.


(** ** JavaScript values and truthiness *)

Inductive jsval : Type :=
  | VUndefined
  | VNull
  | VBool (b : bool)
  | VNum (n : Z)
  | VStr (s : string).

#[global] Instance jsval_eq_dec : EqDecision jsval.
Proof. solve_decision. Defined.

(** [if (v)] *)
Definition truthy (v : jsval) : bool :=
  match v with
  | VUndefined | VNull => false
  | VBool b => b
  | VNum n => bool_decide (n ≠ 0%Z)
  | VStr s => bool_decide (s ≠ "")
  end.

(** ** Blog objects

    Blogs are Ember objects: the component and its callers hold references to
    them, and [blog.set] mutates the one object behind a reference. *)

Abbreviation ref := nat (only parsing).

Record Blog : Type := mkBlog {
  blog_id : string;
  name : string;
  index : Z;
  iconColor : string
}.

(** [blog.get(prop)] *)
Definition get (b : Blog) (prop : string) : jsval :=
  if decide (prop = "id") then VStr (blog_id b)
  else if decide (prop = "name") then VStr (name b)
  else if decide (prop = "index") then VNum (index b)
  else if decide (prop = "iconColor") then VStr (iconColor b)
  else VUndefined.

(** [blog.set('index', i)] *)
Definition set_index (i : Z) (b : Blog) : Blog :=
  {| blog_id := blog_id b; name := name b; index := i; iconColor := iconColor b |}.

(** ** DOM nodes, as the context-menu handler reads them *)

#[warnings="-register-all"]
Inductive node : Type :=
  | Node (classList : option (list string))
         (dataset : option (gmap string string))
         (parentNode : option node).

(** ** Collaborator calls *)

(** How a promise settles; [Pending] is a promise that never settles. *)
Inductive outcome (A : Type) : Type :=
  | Fulfilled (a : A)
  | Rejected
  | Pending.
Arguments Fulfilled {A} a.
Arguments Rejected {A}.
Arguments Pending {A}.

(** [sendAction(...)]: the notifications to the parent UI. *)
Inductive notification : Type :=
  | blogRemoved
  | showEditBlog (result : ref)
  | showAddBlog
  | showPreferences
  | switchToBlog (blog : ref).

(** The arrow functions handed to the window menu: [() => this.send(...)]. *)
Inductive callback : Type :=
  | SendSwitchToBlog (blog : ref)
  | SendShowPreferences
  | SendToggle.

Inductive menuItem : Type :=
  | Separator
  | Item (accelerator : string) (click : callback) (label : jsval).

Record menuDescriptor : Type := mkDescriptor {
  menuName : string;
  md_click : callback;
  md_name : string;
  md_label : string;
  md_accelerator : string;
  position : nat
}.

(** The calls. [Popup sel] is [editMenu.popup(...)]: the menu is shown while
    the variable its entries read, [selectedBlog], holds [sel]. *)
Inductive eff : Type → Type :=
  | FindRecord (modelName : string) (id : jsval) : eff (outcome (option ref))
  | RandomIconColor (result : ref) : eff unit
  | DeleteRecord (result : ref) : eff unit
  | Save (result : ref) : eff (outcome unit)
  | SendAction (n : notification) : eff unit
  | AddQuickSwitchItemsToMenu (showPrefs : callback) (items : list menuItem) : eff unit
  | InjectMenuItem (d : menuDescriptor) : eff unit
  | BuildFromTemplate (labels : list string) : eff unit
  | Popup (sel : jsval) : eff unit
  | PreventDefault : eff unit
  | StopPropagation : eff unit.

(** A call together with what the collaborator answered. *)
Inductive entry : Type :=
  | EvFindRecord (modelName : string) (id : jsval) (res : outcome (option ref))
  | EvRandomIconColor (result : ref)
  | EvDeleteRecord (result : ref)
  | EvSave (result : ref) (res : outcome unit)
  | EvSendAction (n : notification)
  | EvAddQuickSwitchItemsToMenu (showPrefs : callback) (items : list menuItem)
  | EvInjectMenuItem (d : menuDescriptor)
  | EvBuildFromTemplate (labels : list string)
  | EvPopup (sel : jsval)
  | EvPreventDefault
  | EvStopPropagation.

Definition log_of {X : Type} (e : eff X) : X → entry :=
  match e in eff X return X → entry with
  | FindRecord m id => λ res, EvFindRecord m id res
  | RandomIconColor r => λ _, EvRandomIconColor r
  | DeleteRecord r => λ _, EvDeleteRecord r
  | Save r => λ res, EvSave r res
  | SendAction n => λ _, EvSendAction n
  | AddQuickSwitchItemsToMenu cb items => λ _, EvAddQuickSwitchItemsToMenu cb items
  | InjectMenuItem d => λ _, EvInjectMenuItem d
  | BuildFromTemplate ls => λ _, EvBuildFromTemplate ls
  | Popup sel => λ _, EvPopup sel
  | PreventDefault => λ _, EvPreventDefault
  | StopPropagation => λ _, EvStopPropagation
  end.

(** ** Programs over the collaborator calls *)

Inductive prog (A : Type) : Type :=
  | Ret (a : A)
  | Vis {X : Type} (e : eff X) (k : X → prog A).
Arguments Ret {A} a.
Arguments Vis {A X} e k.

Fixpoint prog_bind {A B : Type} (f : A → prog B) (p : prog A) : prog B :=
  match p with
  | Ret a => f a
  | Vis e k => Vis e (λ x, prog_bind f (k x))
  end.

#[global] Instance prog_ret : MRet prog := @Ret.
#[global] Instance prog_mbind : MBind prog := @prog_bind.

Definition call {X : Type} (e : eff X) : prog X := Vis e Ret.

(** The environment: what each collaborator answers to each call. *)
Definition oracle : Type := ∀ X : Type, eff X → X.

Fixpoint run {A : Type} (env : oracle) (p : prog A) : list entry * A :=
  match p with
  | Ret a => ([], a)
  | Vis e k =>
      let x := env _ e in
      let '(tr, a) := run env (k x) in
      (log_of e x :: tr, a)
  end.

Definition trace {A : Type} (env : oracle) (p : prog A) : list entry := (run env p).1.
Definition result {A : Type} (env : oracle) (p : prog A) : A := (run env p).2.

(** ** The store-backed operations *)

Definition changeBlogColor (id : jsval) : prog unit :=
  if truthy id then
    res ← call (FindRecord "blog" id);
    match res with
    | Fulfilled (Some result) =>
        call (RandomIconColor result);;
        call (Save result);;
        mret ()
    | _ => mret ()
    end
  else mret ().

Definition removeBlog (id : jsval) : prog unit :=
  if truthy id then
    res ← call (FindRecord "blog" id);
    match res with
    | Fulfilled (Some result) =>
        call (DeleteRecord result);;
        saved ← call (Save result);
        match saved with
        | Fulfilled _ => call (SendAction blogRemoved)
        | _ => mret ()
        end
    | _ => mret ()
    end
  else mret ().

Definition editBlog (id : jsval) : prog unit :=
  if truthy id then
    res ← call (FindRecord "blog" id);
    match res with
    | Fulfilled (Some result) => call (SendAction (showEditBlog result))
    | _ => mret ()
    end
  else mret ().

(** ** The derived sequence [sortedBlogs]

    [computed.sort('blogs', 'sortDefinition')] is Ember's sort macro: each
    entry of the definition is split at [':'] into a property and a direction
    (ascending unless ['desc']), items are compared property by property with
    Ember's [compare], and a sorted copy of the array is returned. *)

Fixpoint split (sep : Ascii.ascii) (s : string) : list string :=
  match s with
  | "" => [""]
  | String a s' =>
      if decide (a = sep) then "" :: split sep s'
      else match split sep s' with
           | h :: t => String a h :: t
           | [] => [String a ""]
           end
  end.

Definition normalize (p : string) : string * string :=
  let parts := split ":"%char p in
  (default "" (parts !! 0),
   match parts !! 1 with
   | Some d => if decide (d = "") then "asc" else d
   | None => "asc"
   end).

Definition spaceship (a b : Z) : Z := Z.sgn (a - b).

Definition type_order (v : jsval) : Z :=
  match v with
  | VUndefined => 0
  | VNull => 1
  | VBool _ => 2
  | VNum _ => 3
  | VStr _ => 4
  end.

Definition Z_of_comparison (c : comparison) : Z :=
  match c with Lt => -1 | Eq => 0 | Gt => 1 end.

Definition compare (v w : jsval) : Z :=
  let res := spaceship (type_order v) (type_order w) in
  if decide (res = 0%Z) then
    match v, w with
    | VBool a, VBool b => spaceship (Z.b2z a) (Z.b2z b)
    | VNum a, VNum b => spaceship a b
    | VStr a, VStr b => Z_of_comparison (String.compare a b)
    | _, _ => 0
    end
  else res.

Fixpoint compare_by (props : list (string * string)) (a b : Blog) : Z :=
  match props with
  | [] => 0
  | (prop, direction) :: rest =>
      let res := compare (get a prop) (get b prop) in
      if decide (res = 0%Z) then compare_by rest a b
      else if decide (direction = "desc") then (-1 * res)%Z else res
  end.

(** [items.slice().sort(cmp)], as a stable sort. *)
Fixpoint sort_insert {A : Type} (cmp : A → A → Z) (x : A) (l : list A) : list A :=
  match l with
  | [] => [x]
  | y :: l' => if decide (cmp x y ≤ 0)%Z then x :: y :: l' else y :: sort_insert cmp x l'
  end.

Fixpoint array_sort {A : Type} (cmp : A → A → Z) (l : list A) : list A :=
  match l with
  | [] => []
  | x :: l' => sort_insert cmp x (array_sort cmp l')
  end.

(** ** The component *)

(** A bound context-menu handler with the variable its closure captured. *)
Record handler : Type := mkHandler { selectedBlog : jsval }.

(** The component's state: the blog objects behind the references it holds,
    its [blogs] attribute, the boolean flag of the preferences service that
    [isMinimized] aliases, and the handlers bound on its root element. *)
Record Switcher : Type := mkSwitcher {
  objects : ref → Blog;
  blogs : list ref;
  isMinimized : bool;
  listeners : list (string * handler)
}.

Definition sortDefinition : list string := ["index"].

Definition sortedBlogs (s : Switcher) : list ref :=
  array_sort
    (λ a b, compare_by (normalize <$> sortDefinition) (objects s a) (objects s b))
    (blogs s).

(** *** Shortcut binder *)

Definition blogMenuItems (s : Switcher) : list menuItem :=
  Separator ::
  imap (λ i blog,
          Item ("CmdOrCtrl+" +:+ pretty (i + 1))
               (SendSwitchToBlog blog)
               (get (objects s blog) "name"))
       (take 8 (sortedBlogs s)).

Definition _setupQuickSwitch (s : Switcher) : prog unit :=
  call (AddQuickSwitchItemsToMenu SendShowPreferences (blogMenuItems s)).

(** *** Context-menu binder *)

Inductive editMenuItem : Type := EditBlog | RemoveBlog | NewIconColor.

Definition editMenu_label (m : editMenuItem) : string :=
  match m with
  | EditBlog => "Edit Blog"
  | RemoveBlog => "Remove Blog"
  | NewIconColor => "New Icon Color"
  end.

Definition editMenu : list editMenuItem := [EditBlog; RemoveBlog; NewIconColor].

(** The [click()] of a context-menu entry, run against the captured variable. *)
Definition editMenu_click (m : editMenuItem) (h : handler) : prog unit :=
  if truthy (selectedBlog h) then
    match m with
    | EditBlog => editBlog (selectedBlog h)
    | RemoveBlog => removeBlog (selectedBlog h)
    | NewIconColor => changeBlogColor (selectedBlog h)
    end
  else mret ().

(** The loop condition: the class test and the truthiness of [dataset.blog]. *)
Definition switch_btn_blog (classList : option (list string))
    (dataset : option (gmap string string)) : option string :=
  match classList, dataset with
  | Some cl, Some ds =>
      if bool_decide ("switch-btn" ∈ cl) then
        match ds !! "blog" with
        | Some b => if truthy (VStr b) then Some b else None
        | None => None
        end
      else None
  | _, _ => None
  end.

Fixpoint walk (n : node) (sel : jsval) : prog jsval :=
  match n with
  | Node cl ds parent =>
      match switch_btn_blog cl ds with
      | Some b =>
          let sel' := VStr b in
          call (Popup sel');;
          mret sel'
      | None =>
          match parent with
          | Some p => walk p sel
          | None => mret sel
          end
      end
  end.

Definition on_contextmenu (target : node) (h : handler) : prog handler :=
  call PreventDefault;;
  call StopPropagation;;
  sel ← walk target (selectedBlog h);
  mret (mkHandler sel).

(** jQuery keeps a handler under the event type of the name it was bound
    with: the part before the first ['.']; what follows is its namespace. *)
Definition event_type (ev : string) : string := default "" (head (split "."%char ev)).

(** jQuery's [.off(ev)] and [.on(ev, h)] on the component's root element, for
    a plain event type [ev] as the component passes it: [.off(ev)] unbinds
    every handler of that type, whatever its namespace. *)
Definition off (ev : string) (ls : list (string * handler)) : list (string * handler) :=
  filter (λ l, event_type l.1 ≠ ev) ls.

Definition on (ev : string) (h : handler) (ls : list (string * handler)) :
    list (string * handler) :=
  ls ++ [(ev, h)].

Definition _setupContextMenu (s : Switcher) : prog Switcher :=
  call (BuildFromTemplate (editMenu_label <$> editMenu));;
  mret {| objects := objects s; blogs := blogs s; isMinimized := isMinimized s;
          listeners := on "contextmenu" (mkHandler VNull) (off "contextmenu" (listeners s)) |}.

(** A right-click inside the root element: every handler bound for the event
    type runs, namespaced or not, each on its own captured variable. *)
Fixpoint dispatch (ev : string) (target : node) (ls : list (string * handler)) :
    prog (list (string * handler)) :=
  match ls with
  | [] => mret []
  | (ev', h) :: ls' =>
      h' ← (if decide (event_type ev' = ev) then on_contextmenu target h else mret h);
      rest ← dispatch ev target ls';
      mret ((ev', h') :: rest)
  end.

Definition rightClick (target : node) (s : Switcher) : prog Switcher :=
  ls ← dispatch "contextmenu" target (listeners s);
  mret {| objects := objects s; blogs := blogs s; isMinimized := isMinimized s;
          listeners := ls |}.

(** *** Toggle menu-item binder *)

Definition _setupMenuItem : prog unit :=
  call (InjectMenuItem
          {| menuName := "View"; md_click := SendToggle; md_name := "toggle-quick-switcher";
             md_label := "Toggle Quick Switcher"; md_accelerator := "CmdOrCtrl+Alt+Q";
             position := 2 |}).

Definition didRender (s : Switcher) : prog Switcher :=
  s' ← _setupContextMenu s;
  _setupQuickSwitch s';;
  _setupMenuItem;;
  mret s'.

(** *** Actions *)

(** [reorderedBogs.forEach((blog, i) => blog.set('index', i))], from position [i]. *)
Fixpoint forEach_set_index (i : nat) (reorderedBogs : list ref) (o : ref → Blog) :
    ref → Blog :=
  match reorderedBogs with
  | [] => o
  | blog :: rest => forEach_set_index (S i) rest (alter (set_index (Z.of_nat i)) blog o)
  end.

Module actions.

Definition switchToBlog (blog : ref) : prog unit := call (SendAction (switchToBlog blog)).

Definition showAddBlog : prog unit := call (SendAction showAddBlog).

Definition showPreferences : prog unit := call (SendAction showPreferences).

Definition toggle (s : Switcher) : Switcher :=
  {| objects := objects s; blogs := blogs s; isMinimized := negb (isMinimized s);
     listeners := listeners s |}.

Definition reorderItems (reorderedBogs : list ref) (s : Switcher) : prog Switcher :=
  let s1 := {| objects := forEach_set_index 0 reorderedBogs (objects s);
               blogs := blogs s; isMinimized := isMinimized s;
               listeners := listeners s |} in
  s2 ← _setupContextMenu s1;
  _setupQuickSwitch s2;;
  _setupMenuItem;;
  mret s2.

End actions.

(** [this.send(...)] from a menu callback. *)
Definition send (cb : callback) (s : Switcher) : prog Switcher :=
  match cb with
  | SendSwitchToBlog blog => actions.switchToBlog blog;; mret s
  | SendShowPreferences => actions.showPreferences;; mret s
  | SendToggle => mret (actions.toggle s)
  end.

(** ** Concrete environments and inputs *)

(** A store that finds nothing and whose saves succeed. *)
Definition quiet : oracle := λ X e,
  match e in eff X return X with
  | FindRecord _ _ => Fulfilled None
  | Save _ => Fulfilled ()
  | _ => ()
  end.

(** A store that resolves every fetch to record [r] and settles saves as [saved]. *)
Definition finds (r : ref) (saved : outcome unit) : oracle := λ X e,
  match e in eff X return X with
  | FindRecord _ _ => Fulfilled (Some r)
  | Save _ => saved
  | _ => ()
  end.

Definition sample_blog (i : nat) : Blog :=
  {| blog_id := pretty i; name := "blog " +:+ pretty i; index := Z.of_nat i; iconColor := "#008000" |}.

Definition sample (bs : list ref) : Switcher :=
  {| objects := sample_blog; blogs := bs; isMinimized := false; listeners := [] |}.

(** Calls that change the store, and notifications to the parent. *)
Definition mutates (e : entry) : bool :=
  match e with
  | EvRandomIconColor _ | EvDeleteRecord _ | EvSave _ _ => true
  | _ => false
  end.

Definition notifies (e : entry) : bool :=
  match e with
  | EvSendAction _ => true
  | _ => false
  end.

Definition no_record (res : outcome (option ref)) : bool :=
  match res with
  | Fulfilled (Some _) => false
  | _ => true
  end.

Definition silent (tr : list entry) : Prop :=
  Forall (λ e, mutates e = false ∧ notifies e = false) tr.


(** ** Vocabulary of the context-menu properties *)

(** The chain the handler's loop follows: the node, its parent, and so on up. *)
Fixpoint ancestors (n : node) : list node :=
  match n with
  | Node _ _ parent =>
      n :: match parent with
           | Some p => ancestors p
           | None => []
           end
  end.

Definition has_switch_class (n : node) : bool :=
  match n with
  | Node (Some cl) _ _ => bool_decide ("switch-btn" ∈ cl)
  | Node None _ _ => false
  end.

(** The value of the [data-blog] attribute, when the node has one. *)
Definition blog_attr (n : node) : option string :=
  match n with
  | Node _ (Some ds) _ => ds !! "blog"
  | Node _ None _ => None
  end.

(** A switch button that carries a blog-id attribute, whatever its value. *)
Definition carries_blog_attr (n : node) : bool :=
  has_switch_class n && bool_decide (is_Some (blog_attr n)).

(** A switch button whose blog-id attribute is not the empty string. *)
Definition carries_blog_id (n : node) : bool :=
  has_switch_class n &&
  match blog_attr n with
  | Some b => bool_decide (b ≠ "")
  | None => false
  end.

Definition nearest (P : node → bool) (target : node) : option node :=
  head (filter (λ n, P n) (ancestors target)).

Definition is_popup (e : entry) : bool :=
  match e with
  | EvPopup _ => true
  | _ => false
  end.

Definition popups (tr : list entry) : nat := length (filter (λ e, is_popup e) tr).

(** The handlers bound for an event type on the root element, namespaced
    ones included. *)
Definition bound (ev : string) (ls : list (string * handler)) : list (string * handler) :=
  filter (λ l, event_type l.1 = ev) ls.

(** [n] runs of the context-menu binder, one after the other. *)
Fixpoint rebind (n : nat) (s : Switcher) : prog Switcher :=
  match n with
  | 0 => mret s
  | S n' => s' ← _setupContextMenu s; rebind n' s'
  end.

Definition switch_button (blog : string) (parent : option node) : node :=
  Node (Some ["switch-btn"]) (Some {["blog" := blog]}) parent.

Definition icon (parent : option node) : node :=
  Node (Some ["icon"]) (Some ∅) parent.

Definition document : node := Node None None None.

(** ** Vocabulary of the sorting property *)

(** Ascending order of [index], read off the blog objects of [s]. *)
Definition by_index (s : Switcher) : relation ref :=
  λ a b, (index (objects s a) ≤ index (objects s b))%Z.

(** [blog.set('index', v)] on one blog of the component. *)
Definition set_blog_index (blog : ref) (v : Z) (s : Switcher) : Switcher :=
  {| objects := alter (set_index v) blog (objects s); blogs := blogs s;
     isMinimized := isMinimized s; listeners := listeners s |}.

(** ** Vocabulary of the further properties *)

(** The record a store call or an edit notification is about. *)
Definition record_of (e : entry) : option ref :=
  match e with
  | EvRandomIconColor r | EvDeleteRecord r | EvSave r _ => Some r
  | EvSendAction (showEditBlog r) => Some r
  | _ => None
  end.

Definition is_delete (e : entry) : bool :=
  match e with
  | EvDeleteRecord _ => true
  | _ => false
  end.

Definition is_recolor (e : entry) : bool :=
  match e with
  | EvRandomIconColor _ => true
  | _ => false
  end.

Definition is_fetch (e : entry) : bool :=
  match e with
  | EvFindRecord _ _ _ => true
  | _ => false
  end.

(** A component with handlers already bound, some under a namespace and
    some for another event. *)
Definition sample_bound (bs : list ref) : Switcher :=
  {| objects := sample_blog; blogs := bs; isMinimized := true;
     listeners := [("contextmenu", mkHandler (VStr "9")); ("click", mkHandler (VStr "a"));
                   ("contextmenu.tip", mkHandler (VStr "8"));
                   ("click.menu", mkHandler (VStr "b"));
                   ("contextmenu", mkHandler VNull)] |}.

Definition accelerator_of (m : menuItem) : option string :=
  match m with
  | Item a _ _ => Some a
  | Separator => None
  end.

(** The shortcuts a menu-item list binds, in order. *)
Definition shortcuts (items : list menuItem) : list string := omap accelerator_of items.

(** The sample blogs under other names and colors, the switcher minimized. *)
Definition sample_renamed (bs : list ref) : Switcher :=
  {| objects := λ i, {| blog_id := pretty i; name := "renamed"; index := Z.of_nat i;
                        iconColor := "#ff0000" |};
     blogs := bs; isMinimized := true;
     listeners := [("contextmenu", mkHandler (VStr "1"))] |}.
(** * Properties *)

(** ** Sanity checks on concrete inputs *)

Example removeBlog_quiet :
  trace quiet (removeBlog (VStr "7")) = [EvFindRecord "blog" (VStr "7") (Fulfilled None)].
Proof. reflexivity. Qed.

Example sortedBlogs_sample : sortedBlogs (sample [3; 1; 2]) = [1; 2; 3].
Proof. vm_compute. reflexivity. Qed.

Example blogMenuItems_sample :
  blogMenuItems (sample [2; 1]) =
    [Separator; Item "CmdOrCtrl+1" (SendSwitchToBlog 1) (VStr "blog 1");
     Item "CmdOrCtrl+2" (SendSwitchToBlog 2) (VStr "blog 2")].
Proof. vm_compute. reflexivity. Qed.

(** ** Running programs *)

Lemma run_bind {A B : Type} (env : oracle) (p : prog A) (f : A → prog B) :
  run env (p ≫= f) =
    ((run env p).1 ++ (run env (f (run env p).2)).1, (run env (f (run env p).2)).2).
Proof.
  unfold mbind, prog_mbind.
  induction p as [a|X e k IH]; simpl.
  - by destruct (run env (f a)).
  - rewrite IH. by destruct (run env (k (env X e))).
Qed.

Lemma trace_bind {A B : Type} (env : oracle) (p : prog A) (f : A → prog B) :
  trace env (p ≫= f) = trace env p ++ trace env (f (result env p)).
Proof. unfold trace, result. by rewrite run_bind. Qed.

Lemma result_bind {A B : Type} (env : oracle) (p : prog A) (f : A → prog B) :
  result env (p ≫= f) = result env (f (result env p)).
Proof. unfold result. by rewrite run_bind. Qed.

(** ** Store-backed operations *)

Lemma trace_changeBlogColor (env : oracle) (id : jsval) :
  trace env (changeBlogColor id) =
    if truthy id then
      EvFindRecord "blog" id (env _ (FindRecord "blog" id)) ::
      match env _ (FindRecord "blog" id) with
      | Fulfilled (Some r) => [EvRandomIconColor r; EvSave r (env _ (Save r))]
      | _ => []
      end
    else [].
Proof.
  unfold trace, changeBlogColor. destruct (truthy id); [|done]. simpl.
  by destruct (env _ (FindRecord "blog" id)) as [[r|]| |].
Qed.

Lemma trace_removeBlog (env : oracle) (id : jsval) :
  trace env (removeBlog id) =
    if truthy id then
      EvFindRecord "blog" id (env _ (FindRecord "blog" id)) ::
      match env _ (FindRecord "blog" id) with
      | Fulfilled (Some r) =>
          [EvDeleteRecord r; EvSave r (env _ (Save r))] ++
          match env _ (Save r) with
          | Fulfilled _ => [EvSendAction blogRemoved]
          | _ => []
          end
      | _ => []
      end
    else [].
Proof.
  unfold trace, removeBlog. destruct (truthy id); [|done]. simpl.
  destruct (env _ (FindRecord "blog" id)) as [[r|]| |]; try done.
  simpl. by destruct (env _ (Save r)).
Qed.

Lemma trace_editBlog (env : oracle) (id : jsval) :
  trace env (editBlog id) =
    if truthy id then
      EvFindRecord "blog" id (env _ (FindRecord "blog" id)) ::
      match env _ (FindRecord "blog" id) with
      | Fulfilled (Some r) => [EvSendAction (showEditBlog r)]
      | _ => []
      end
    else [].
Proof.
  unfold trace, editBlog. destruct (truthy id); [|done]. simpl.
  by destruct (env _ (FindRecord "blog" id)) as [[r|]| |].
Qed.



(** C4. When the fetch yields no record (it resolves empty, is rejected, or
    never settles), [changeBlogColor], [removeBlog] and [editBlog] make no
    mutating store call ([randomIconColor], [deleteRecord], [save]) and send
    no notification to the parent: the fetch is the only call they make. *)
Theorem fetch_miss_noop (env : oracle) (id : jsval) :
  no_record (env _ (FindRecord "blog" id)) = true →
  silent (trace env (changeBlogColor id)) ∧
  silent (trace env (removeBlog id)) ∧
  silent (trace env (editBlog id)).
Proof.
  intros Hmiss.
  rewrite trace_changeBlogColor, trace_removeBlog, trace_editBlog.
  unfold silent.
  destruct (truthy id); [|by repeat split; constructor].
  destruct (env _ (FindRecord "blog" id)) as [[r|]| |]; [done|..];
    repeat split; by repeat constructor.
Qed.

Lemma fetch_miss_noop_witness :
  no_record (quiet _ (FindRecord "blog" (VStr "7"))) = true ∧
  silent (trace quiet (changeBlogColor (VStr "7"))) ∧
  silent (trace quiet (removeBlog (VStr "7"))) ∧
  silent (trace quiet (editBlog (VStr "7"))).
Proof.
  split; [reflexivity|].
  apply (fetch_miss_noop quiet (VStr "7")). reflexivity.
Defined.

(** C10. For a falsy id ([null], [undefined], the empty string, and every
    other falsy value) [changeBlogColor], [removeBlog] and [editBlog] return
    at once: whatever the environment, no call is made at all, neither the
    fetch nor a notification. *)
Theorem falsy_id_no_call (env : oracle) (id : jsval) :
  truthy id = false →
  changeBlogColor id = Ret () ∧ trace env (changeBlogColor id) = [] ∧
  removeBlog id = Ret () ∧ trace env (removeBlog id) = [] ∧
  editBlog id = Ret () ∧ trace env (editBlog id) = [].
Proof.
  intros Hfalsy. unfold changeBlogColor, removeBlog, editBlog.
  rewrite Hfalsy. by repeat split.
Qed.

Lemma falsy_id_no_call_witness :
  truthy (VStr "") = false ∧
  changeBlogColor (VStr "") = Ret () ∧ trace (finds 1 (Fulfilled ())) (changeBlogColor (VStr "")) = [] ∧
  removeBlog (VStr "") = Ret () ∧ trace (finds 1 (Fulfilled ())) (removeBlog (VStr "")) = [] ∧
  editBlog (VStr "") = Ret () ∧ trace (finds 1 (Fulfilled ())) (editBlog (VStr "")) = [].
Proof.
  split; [reflexivity|].
  apply (falsy_id_no_call (finds 1 (Fulfilled ())) (VStr "")). reflexivity.
Defined.

Example falsy_ids :
  truthy VNull = false ∧ truthy VUndefined = false ∧ truthy (VStr "") = false.
Proof. by repeat split. Qed.

(** ** Context-menu actions *)

(** C6. When the captured [selectedBlog] is still unset ([null], its initial
    value) at the moment one of the three context-menu entries is clicked,
    the click does nothing: no store call is made and no notification sent,
    whatever the environment. *)
Theorem editMenu_click_unset (env : oracle) (m : editMenuItem) :
  editMenu_click m (mkHandler VNull) = Ret () ∧
  run env (editMenu_click m (mkHandler VNull)) = ([], ()).
Proof. by destruct m. Qed.

(** ** Toggle *)

(** C7. The toggle action negates the minimized flag, a second toggle restores
    the original value, no other part of the component changes, and reached
    through the menu callback it makes no collaborator call. *)
Theorem toggle_involutive (env : oracle) (s : Switcher) :
  isMinimized (actions.toggle s) = negb (isMinimized s) ∧
  isMinimized (actions.toggle (actions.toggle s)) = isMinimized s ∧
  actions.toggle (actions.toggle s) = s ∧
  objects (actions.toggle s) = objects s ∧
  blogs (actions.toggle s) = blogs s ∧
  listeners (actions.toggle s) = listeners s ∧
  run env (send SendToggle s) = ([], actions.toggle s).
Proof.
  destruct s as [o bs m ls]; simpl.
  repeat split; try done; unfold actions.toggle; simpl; by rewrite negb_involutive.
Qed.

(** ** Shortcut binder *)

Lemma blogMenuItems_length (s : Switcher) :
  length (blogMenuItems s) = 1 + length (sortedBlogs s) `min` 8.
Proof.
  unfold blogMenuItems. simpl. rewrite length_imap, length_take. lia.
Qed.

Lemma blogMenuItems_entry (s : Switcher) (i : nat) (blog : ref) :
  i < 8 → sortedBlogs s !! i = Some blog →
  blogMenuItems s !! S i =
    Some (Item ("CmdOrCtrl+" +:+ pretty (i + 1)) (SendSwitchToBlog blog)
               (VStr (name (objects s blog)))).
Proof.
  intros Hi Hblog. unfold blogMenuItems. simpl.
  rewrite list_lookup_imap, lookup_take_lt by done.
  by rewrite Hblog.
Qed.

(** C1. The shortcut binder makes one call to the window menu, passing the
    show-preferences callback and a list that starts with one separator and
    continues with [min n 8] entries and nothing more, [n] being the number
    of sorted blogs; entry [i] (from 0) carries the accelerator
    [CmdOrCtrl+(i+1)], the name of the [i]-th sorted blog as its label and
    the switch to that blog as its click. *)
Theorem setupQuickSwitch_menu (env : oracle) (s : Switcher) :
  trace env (_setupQuickSwitch s) =
    [EvAddQuickSwitchItemsToMenu SendShowPreferences (blogMenuItems s)] ∧
  blogMenuItems s !! 0 = Some Separator ∧
  length (blogMenuItems s) = 1 + length (sortedBlogs s) `min` 8 ∧
  (∀ i, blogMenuItems s !! S i ≠ Some Separator) ∧
  (∀ i blog, i < 8 → sortedBlogs s !! i = Some blog →
     blogMenuItems s !! S i =
       Some (Item ("CmdOrCtrl+" +:+ pretty (i + 1)) (SendSwitchToBlog blog)
                  (VStr (name (objects s blog))))).
Proof.
  split_and!; [done|done|apply blogMenuItems_length| |apply blogMenuItems_entry].
  intros i. unfold blogMenuItems. simpl. rewrite list_lookup_imap.
  by destruct (take 8 (sortedBlogs s) !! i).
Qed.

Lemma setupQuickSwitch_menu_witness :
  1 < 8 ∧ sortedBlogs (sample [2; 1]) !! 1 = Some 2 ∧
  blogMenuItems (sample [2; 1]) !! 2 =
    Some (Item ("CmdOrCtrl+" +:+ pretty (1 + 1)) (SendSwitchToBlog 2)
               (VStr (name (objects (sample [2; 1]) 2)))).
Proof.
  split_and!; [lia|vm_compute; reflexivity|].
  apply (setupQuickSwitch_menu quiet (sample [2; 1])); [lia|vm_compute; reflexivity].
Defined.

Example accelerators :
  (λ i : nat, "CmdOrCtrl+" +:+ pretty (i + 1)) <$> seq 0 8 =
    ["CmdOrCtrl+1"; "CmdOrCtrl+2"; "CmdOrCtrl+3"; "CmdOrCtrl+4";
     "CmdOrCtrl+5"; "CmdOrCtrl+6"; "CmdOrCtrl+7"; "CmdOrCtrl+8"].
Proof. vm_compute. reflexivity. Qed.

Example blogMenuItems_empty : blogMenuItems (sample []) = [Separator].
Proof. reflexivity. Qed.

Example blogMenuItems_twenty :
  length (blogMenuItems (sample (seq 0 20))) = 9.
Proof. vm_compute. reflexivity. Qed.

(** ** Context-menu binder *)

Lemma node_chain_ind (P : node → Prop) :
  (∀ cl ds, P (Node cl ds None)) →
  (∀ cl ds p, P p → P (Node cl ds (Some p))) →
  ∀ n, P n.
Proof.
  intros Hroot Hstep. fix IH 1.
  intros [cl ds [p|]]; [apply Hstep, IH|apply Hroot].
Qed.

Lemma carries_blog_id_spec (cl : option (list string)) (ds : option (gmap string string))
    (parent : option node) :
  switch_btn_blog cl ds =
    if carries_blog_id (Node cl ds parent) then blog_attr (Node cl ds parent) else None.
Proof.
  unfold switch_btn_blog, carries_blog_id, has_switch_class, blog_attr, truthy.
  destruct cl as [cl|], ds as [ds|]; try done.
  - destruct (bool_decide ("switch-btn" ∈ cl)); [|done]. simpl.
    by destruct (ds !! "blog") as [b|]; [destruct (bool_decide (b ≠ ""))|].
  - by destruct (bool_decide ("switch-btn" ∈ cl)).
Qed.

Lemma carries_blog_id_attr (n : node) :
  carries_blog_id n = true ↔ has_switch_class n = true ∧ ∃ b, blog_attr n = Some b ∧ b ≠ "".
Proof.
  unfold carries_blog_id. rewrite andb_true_iff.
  split; intros [Hcl Hb]; (split; [done|]).
  - destruct (blog_attr n) as [b|]; [|done].
    exists b. split; [done|]. by apply bool_decide_eq_true in Hb.
  - destruct Hb as (b & -> & Hb). by apply bool_decide_eq_true.
Qed.

Lemma nearest_cons (P : node → bool) (cl : option (list string))
    (ds : option (gmap string string)) (parent : option node) :
  nearest P (Node cl ds parent) =
    if P (Node cl ds parent) then Some (Node cl ds parent)
    else parent ≫= nearest P.
Proof.
  unfold nearest. simpl. rewrite filter_cons.
  destruct (P (Node cl ds parent)); simpl; [done|].
  by destruct parent.
Qed.

Lemma run_walk (env : oracle) (target : node) (sel : jsval) :
  run env (walk target sel) =
    match nearest carries_blog_id target with
    | Some a =>
        ([EvPopup (from_option VStr sel (blog_attr a))],
         from_option VStr sel (blog_attr a))
    | None => ([], sel)
    end.
Proof.
  induction target as [cl ds|cl ds p IH] using node_chain_ind;
    rewrite nearest_cons; simpl.
  - rewrite (carries_blog_id_spec cl ds None).
    destruct (carries_blog_id (Node cl ds None)) eqn:Hc; [|done].
    apply carries_blog_id_attr in Hc as (_ & b & Hb & _). by rewrite Hb.
  - rewrite (carries_blog_id_spec cl ds (Some p)).
    destruct (carries_blog_id (Node cl ds (Some p))) eqn:Hc; [|done].
    apply carries_blog_id_attr in Hc as (_ & b & Hb & _). by rewrite Hb.
Qed.

Lemma run_on_contextmenu (env : oracle) (target : node) (h : handler) :
  run env (on_contextmenu target h) =
    match nearest carries_blog_id target with
    | Some a =>
        ([EvPreventDefault; EvStopPropagation;
          EvPopup (from_option VStr (selectedBlog h) (blog_attr a))],
         mkHandler (from_option VStr (selectedBlog h) (blog_attr a)))
    | None => ([EvPreventDefault; EvStopPropagation], h)
    end.
Proof.
  unfold on_contextmenu. rewrite !run_bind. simpl. rewrite run_walk.
  destruct (nearest carries_blog_id target); simpl; [done|by destruct h].
Qed.

Lemma nearest_Some (P : node → bool) (target a : node) :
  nearest P target = Some a → P a = true ∧ a ∈ ancestors target.
Proof.
  unfold nearest. intros [l Hl]%head_Some.
  assert (a ∈ filter (λ n, P n) (ancestors target)) as Hin
    by (rewrite Hl; apply list_elem_of_here).
  apply list_elem_of_filter in Hin as [HP Hin].
  split; [by apply Is_true_true|done].
Qed.

(** C5 (amended). On a right-click the handler suppresses the default menu
    and follows the ancestor chain from the click target. When some node of
    the chain (the target included) has the switch-button class and a
    non-empty blog-id data attribute, the handler stores the blog id of the
    nearest such node in [selectedBlog] and then shows the popup, once, with
    that id already stored; when
    the chain has no such node, no popup is shown and [selectedBlog] keeps
    its value. *)
Theorem contextmenu_nearest_blog (env : oracle) (target : node) (h : handler) :
  (∀ a, nearest carries_blog_id target = Some a →
     ∃ b, blog_attr a = Some b ∧ b ≠ "" ∧
          run env (on_contextmenu target h) =
            ([EvPreventDefault; EvStopPropagation; EvPopup (VStr b)],
             mkHandler (VStr b))) ∧
  (nearest carries_blog_id target = None →
     run env (on_contextmenu target h) = ([EvPreventDefault; EvStopPropagation], h)).
Proof.
  rewrite run_on_contextmenu. split.
  - intros a Ha. rewrite Ha.
    apply nearest_Some in Ha as [(_ & b & Hb & Hne)%carries_blog_id_attr _].
    exists b. by rewrite Hb.
  - by intros ->.
Qed.

Lemma contextmenu_nearest_blog_witness :
  nearest carries_blog_id (icon (Some (switch_button "42" (Some document)))) =
    Some (switch_button "42" (Some document)) ∧
  ∃ b, blog_attr (switch_button "42" (Some document)) = Some b ∧ b ≠ "" ∧
       run quiet (on_contextmenu (icon (Some (switch_button "42" (Some document))))
                                 (mkHandler (VStr "7"))) =
         ([EvPreventDefault; EvStopPropagation; EvPopup (VStr b)], mkHandler (VStr b)).
Proof.
  split; [vm_compute; reflexivity|].
  apply (proj1 (contextmenu_nearest_blog quiet
                  (icon (Some (switch_button "42" (Some document))))
                  (mkHandler (VStr "7")))).
  vm_compute. reflexivity.
Defined.

Example contextmenu_inside_button :
  run quiet (on_contextmenu (icon (Some (switch_button "42" (Some document))))
                            (mkHandler (VStr "7"))) =
    ([EvPreventDefault; EvStopPropagation; EvPopup (VStr "42")], mkHandler (VStr "42")).
Proof. vm_compute. reflexivity. Qed.

Example contextmenu_nearest_button :
  run quiet (on_contextmenu (switch_button "1" (Some (switch_button "2" None)))
                            (mkHandler VNull)) =
    ([EvPreventDefault; EvStopPropagation; EvPopup (VStr "1")], mkHandler (VStr "1")).
Proof. vm_compute. reflexivity. Qed.

Example contextmenu_outside_button :
  run quiet (on_contextmenu (icon (Some document)) (mkHandler (VStr "7"))) =
    ([EvPreventDefault; EvStopPropagation], mkHandler (VStr "7")).
Proof. vm_compute. reflexivity. Qed.

(** C5 as stated fails on a switch button whose blog-id attribute is the
    empty string: the node carries the class and the attribute, yet the
    handler shows no popup. *)
Lemma contextmenu_empty_blog_attr :
  ¬ (∀ (env : oracle) (target : node) (h : handler) (a : node),
       nearest carries_blog_attr target = Some a →
       0 < popups (trace env (on_contextmenu target h))).
Proof.
  intros Hclaim.
  specialize (Hclaim quiet (switch_button "" None) (mkHandler VNull)
                     (switch_button "" None)).
  assert (trace quiet (on_contextmenu (switch_button "" None) (mkHandler VNull)) =
            [EvPreventDefault; EvStopPropagation]) as Htrace
    by (vm_compute; reflexivity).
  rewrite Htrace in Hclaim.
  assert (nearest carries_blog_attr (switch_button "" None) =
            Some (switch_button "" None)) as Hnear by (vm_compute; reflexivity).
  specialize (Hclaim Hnear).
  vm_compute in Hclaim. lia.
Qed.

(** ** Re-binding the context-menu handler *)

Lemma event_type_contextmenu : event_type "contextmenu" = "contextmenu".
Proof. vm_compute. reflexivity. Qed.

Lemma bound_on_off (ev : string) (h : handler) (ls : list (string * handler)) :
  event_type ev = ev → bound ev (on ev h (off ev ls)) = [(ev, h)].
Proof.
  intros Hev. unfold bound, on, off. rewrite filter_app.
  assert (filter (λ l : string * handler, event_type l.1 = ev)
            (filter (λ l : string * handler, event_type l.1 ≠ ev) ls) = []) as ->.
  { induction ls as [|l ls IH]; [done|].
    rewrite (filter_cons (λ l : string * handler, event_type l.1 ≠ ev)).
    case_decide; [|done]. by rewrite filter_cons_False. }
  by rewrite filter_cons_True.
Qed.

Lemma rebind_bound (env : oracle) (n : nat) (s : Switcher) :
  bound "contextmenu" (listeners (result env (rebind (S n) s))) =
    [("contextmenu", mkHandler VNull)].
Proof.
  revert s. induction n as [|n IH]; intros s.
  - change (rebind 1 s) with (_setupContextMenu s ≫= rebind 0).
    rewrite result_bind. apply bound_on_off, event_type_contextmenu.
  - change (rebind (S (S n)) s) with (_setupContextMenu s ≫= rebind (S n)).
    rewrite result_bind. apply IH.
Qed.

Lemma trace_ret {A : Type} (env : oracle) (a : A) : trace env (mret a) = [].
Proof. done. Qed.

Lemma popups_app (tr1 tr2 : list entry) :
  popups (tr1 ++ tr2) = popups tr1 + popups tr2.
Proof. unfold popups. by rewrite filter_app, length_app. Qed.

Lemma popups_on_contextmenu (env : oracle) (target : node) (h : handler) :
  popups (trace env (on_contextmenu target h)) ≤ 1.
Proof.
  unfold trace. rewrite run_on_contextmenu.
  destruct (nearest carries_blog_id target); vm_compute; lia.
Qed.

Lemma popups_dispatch (env : oracle) (ev : string) (target : node)
    (ls : list (string * handler)) :
  popups (trace env (dispatch ev target ls)) ≤ length (bound ev ls).
Proof.
  induction ls as [|[ev' h] ls IH]; [done|].
  simpl. rewrite !trace_bind, !popups_app. unfold bound in *.
  rewrite filter_cons. simpl.
  pose proof (popups_on_contextmenu env target h).
  case_decide; simpl; rewrite trace_ret; change (popups []) with 0; lia.
Qed.

(** C8. After any number of runs of the context-menu binder (one or more),
    whatever handlers were bound before, exactly one contextmenu handler is
    bound to the root element, the one of the last run with its
    [selectedBlog] unset, since each run unbinds the event before binding;
    a right-click then shows at most one popup. *)
Theorem rebind_one_handler (env : oracle) (n : nat) (s : Switcher) (target : node) :
  bound "contextmenu" (listeners (result env (rebind (S n) s))) =
    [("contextmenu", mkHandler VNull)] ∧
  length (bound "contextmenu" (listeners (result env (rebind (S n) s)))) = 1 ∧
  popups (trace env (rightClick target (result env (rebind (S n) s)))) ≤ 1.
Proof.
  pose proof (rebind_bound env n s) as Hb.
  remember (result env (rebind (S n) s)) as s' eqn:Hs'. clear Hs'.
  split_and!; [done|by rewrite Hb|].
  unfold rightClick. rewrite trace_bind, popups_app, trace_ret.
  pose proof (popups_dispatch env "contextmenu" target (listeners s')) as Hp.
  rewrite Hb in Hp. simpl in Hp. change (popups []) with 0. lia.
Qed.

Example two_handlers_two_popups :
  popups (trace quiet
            (rightClick (switch_button "3" None)
               {| objects := sample_blog; blogs := []; isMinimized := false;
                  listeners := [("contextmenu", mkHandler VNull);
                                ("contextmenu", mkHandler VNull)] |})) = 2.
Proof. vm_compute. reflexivity. Qed.

Example rebind_twice_one_popup :
  popups (trace quiet
            (rightClick (switch_button "3" None)
               (result quiet (rebind 2 (sample [1; 2; 3]))))) = 1.
Proof. vm_compute. reflexivity. Qed.

(** ** Reorder *)

Lemma forEach_set_index_notin (k : nat) (reorderedBogs : list ref) (o : ref → Blog)
    (blog : ref) :
  blog ∉ reorderedBogs → forEach_set_index k reorderedBogs o blog = o blog.
Proof.
  revert k o. induction reorderedBogs as [|x rest IH]; intros k o Hnotin; [done|].
  apply not_elem_of_cons in Hnotin as [Hne Hrest]. simpl.
  rewrite IH by done. by rewrite fn_lookup_alter_ne.
Qed.

Lemma forEach_set_index_last (k i : nat) (reorderedBogs : list ref) (o : ref → Blog)
    (blog : ref) :
  reorderedBogs !! i = Some blog → blog ∉ drop (S i) reorderedBogs →
  forEach_set_index k reorderedBogs o blog = set_index (Z.of_nat (k + i)) (o blog).
Proof.
  revert k i o. induction reorderedBogs as [|x rest IH]; intros k i o Hi Hlast; [done|].
  destruct i as [|i]; simpl in *.
  - simplify_eq. rewrite drop_0 in Hlast.
    rewrite forEach_set_index_notin by done.
    by rewrite fn_lookup_alter, Nat.add_0_r.
  - rewrite (IH (S k) i) by done.
    replace (S k + i) with (k + S i) by lia.
    destruct (decide (x = blog)) as [->|Hne].
    + by rewrite fn_lookup_alter.
    + by rewrite fn_lookup_alter_ne.
Qed.

Lemma reorderItems_objects (env : oracle) (reorderedBogs : list ref) (s : Switcher) :
  objects (result env (actions.reorderItems reorderedBogs s)) =
    forEach_set_index 0 reorderedBogs (objects s).
Proof. reflexivity. Qed.

(** After [reorderItems], a blog of the sequence has as its index the
    0-based position of its last occurrence in the sequence. *)
Theorem reorderItems_indices (env : oracle) (reorderedBogs : list ref) (s : Switcher)
    (i : nat) (blog : ref) :
  reorderedBogs !! i = Some blog → blog ∉ drop (S i) reorderedBogs →
  index (objects (result env (actions.reorderItems reorderedBogs s)) blog) = Z.of_nat i.
Proof.
  intros Hi Hlast.
  by rewrite reorderItems_objects, (forEach_set_index_last 0 i).
Qed.

Lemma reorderItems_indices_witness :
  [3; 1; 2] !! 0 = Some 3 ∧ (3 ∉ drop 1 [3; 1; 2]) ∧
  index (objects (result quiet (actions.reorderItems [3; 1; 2] (sample [1; 2; 3]))) 3) = 0%Z.
Proof.
  assert (3 ∉ drop 1 [3; 1; 2]) as Hlast
    by (apply (bool_decide_eq_false_1 (3 ∈ drop 1 [3; 1; 2])); reflexivity).
  split_and!; [reflexivity|exact Hlast|].
  apply (reorderItems_indices quiet [3; 1; 2] (sample [1; 2; 3]) 0 3);
    [reflexivity|exact Hlast].
Defined.

Lemma reorderItems_distinct (env : oracle) (reorderedBogs : list ref) (s : Switcher)
    (i : nat) (blog : ref) :
  NoDup reorderedBogs → reorderedBogs !! i = Some blog →
  index (objects (result env (actions.reorderItems reorderedBogs s)) blog) = Z.of_nat i.
Proof.
  intros Hnodup Hi.
  rewrite reorderItems_objects, (forEach_set_index_last 0 i); [done..|].
  intros Hin. apply list_elem_of_lookup in Hin as [j Hj].
  rewrite lookup_drop in Hj.
  pose proof (NoDup_lookup _ _ _ _ Hnodup Hi Hj). lia.
Qed.

Example reorderItems_B3_B1_B2 :
  let s' := result quiet (actions.reorderItems [3; 1; 2] (sample [1; 2; 3])) in
  index (objects s' 3) = 0%Z ∧ index (objects s' 1) = 1%Z ∧ index (objects s' 2) = 2%Z ∧
  sortedBlogs s' = [3; 1; 2].
Proof. vm_compute. by repeat split. Qed.

Lemma last_occurrence (l : list ref) (x : ref) :
  x ∈ l → ∃ i, l !! i = Some x ∧ x ∉ drop (S i) l.
Proof.
  induction l as [|y l IH]; intros Hin; [by apply elem_of_nil in Hin|].
  destruct (decide (x ∈ l)) as [Hl|Hl].
  - destruct (IH Hl) as (i & Hi & Hlast). by exists (S i).
  - apply elem_of_cons in Hin as [->|Hin]; [|done].
    exists 0. split; [done|]. simpl. by rewrite drop_0.
Qed.

(** C2. After [reorderItems] every blog of the sequence has as its index a
    0-based position at which it stands in that sequence; in a reordering,
    where every blog stands once, its index is its position, so that for
    [B3; B1; B2] the indices are 0 for [B3], 1 for [B1] and 2 for [B2]. *)
Theorem reorderItems_positions (env : oracle) (reorderedBogs : list ref) (s : Switcher)
    (blog : ref) :
  blog ∈ reorderedBogs →
  (∃ i, reorderedBogs !! i = Some blog ∧
        index (objects (result env (actions.reorderItems reorderedBogs s)) blog) =
          Z.of_nat i) ∧
  (NoDup reorderedBogs → ∀ i, reorderedBogs !! i = Some blog →
     index (objects (result env (actions.reorderItems reorderedBogs s)) blog) =
       Z.of_nat i).
Proof.
  intros Hin. rewrite reorderItems_objects. split.
  - destruct (last_occurrence _ _ Hin) as (i & Hi & Hlast).
    exists i. split; [done|]. by rewrite (forEach_set_index_last 0 i).
  - intros Hnodup i Hi. rewrite (forEach_set_index_last 0 i); [done..|].
    intros Hlater. apply list_elem_of_lookup in Hlater as [j Hj].
    rewrite lookup_drop in Hj.
    pose proof (NoDup_lookup _ _ _ _ Hnodup Hi Hj). lia.
Qed.

Lemma reorderItems_positions_witness :
  1 ∈ [3; 1; 2] ∧ NoDup [3; 1; 2] ∧ [3; 1; 2] !! 1 = Some 1 ∧
  index (objects (result quiet (actions.reorderItems [3; 1; 2] (sample [1; 2; 3]))) 1) = 1%Z.
Proof.
  assert (1 ∈ [3; 1; 2]) as Hin by (apply list_elem_of_further, list_elem_of_here).
  assert (NoDup [3; 1; 2]) as Hnodup
    by (apply (bool_decide_unpack (NoDup [3; 1; 2])); reflexivity).
  split_and!; [exact Hin|exact Hnodup|reflexivity|].
  apply (proj2 (reorderItems_positions quiet [3; 1; 2] (sample [1; 2; 3]) 1 Hin) Hnodup 1).
  reflexivity.
Defined.

(** A blog object passed twice ends with the index of its last position: the
    second [blog.set] overwrites the first. *)
Example reorderItems_repeat_last_wins :
  index (objects (result quiet (actions.reorderItems [1; 1] (sample [1]))) 1) = 1%Z.
Proof. vm_compute. reflexivity. Qed.

(** ** The sorted sequence *)

Section array_sort.
Context {A : Type} (cmp : A → A → Z).
Hypothesis cmp_total : ∀ a b, (0 < cmp a b)%Z → (cmp b a ≤ 0)%Z.

Let le (a b : A) : Prop := (cmp a b ≤ 0)%Z.

Lemma sort_insert_Permutation (x : A) (l : list A) : sort_insert cmp x l ≡ₚ x :: l.
Proof.
  induction l as [|y l IH]; simpl; [done|].
  case_decide; [done|]. rewrite IH. apply Permutation_swap.
Qed.

Lemma array_sort_Permutation (l : list A) : array_sort cmp l ≡ₚ l.
Proof.
  induction l as [|x l IH]; simpl; [done|].
  by rewrite sort_insert_Permutation, IH.
Qed.

Lemma sort_insert_HdRel (x y : A) (l : list A) :
  le y x → HdRel le y l → HdRel le y (sort_insert cmp x l).
Proof.
  intros Hyx Hhd. destruct l as [|z l]; simpl; [by constructor|].
  case_decide; constructor; [done|]. by inversion Hhd.
Qed.

Lemma sort_insert_Sorted (x : A) (l : list A) :
  Sorted le l → Sorted le (sort_insert cmp x l).
Proof.
  induction 1 as [|y l Hsorted IH Hhd]; simpl.
  - by repeat constructor.
  - case_decide as Hxy.
    + by repeat constructor.
    + constructor; [done|].
      apply sort_insert_HdRel; [|done].
      apply cmp_total. lia.
Qed.

Lemma array_sort_Sorted (l : list A) : Sorted le (array_sort cmp l).
Proof.
  induction l as [|x l IH]; simpl; [constructor|].
  by apply sort_insert_Sorted.
Qed.
End array_sort.

Lemma normalize_sortDefinition : normalize <$> sortDefinition = [("index", "asc")].
Proof. vm_compute. reflexivity. Qed.

Lemma get_index (b : Blog) : get b "index" = VNum (index b).
Proof. by destruct b. Qed.

Lemma get_name (b : Blog) : get b "name" = VStr (name b).
Proof. by destruct b. Qed.

Lemma compare_by_index (a b : Blog) :
  compare_by (normalize <$> sortDefinition) a b = Z.sgn (index a - index b).
Proof.
  rewrite normalize_sortDefinition. simpl. rewrite !get_index.
  unfold compare, spaceship. simpl.
  repeat case_decide; try done.
Qed.

Lemma Sorted_weaken {A : Type} (R1 R2 : relation A) (l : list A) :
  (∀ a b, R1 a b → R2 a b) → Sorted R1 l → Sorted R2 l.
Proof.
  intros Himpl. induction 1 as [|x l Hsorted IH Hhd]; constructor; [done|].
  destruct Hhd; constructor. by apply Himpl.
Qed.

#[local] Instance by_index_transitive (s : Switcher) : Transitive (by_index s).
Proof. intros a b c. unfold by_index. lia. Qed.

Lemma sortedBlogs_Sorted (s : Switcher) : StronglySorted (by_index s) (sortedBlogs s).
Proof.
  apply Sorted_StronglySorted; [apply _|].
  apply (Sorted_weaken
           (λ a b, (compare_by (normalize <$> sortDefinition)
                      (objects s a) (objects s b) ≤ 0)%Z)).
  - intros a b. rewrite compare_by_index. unfold by_index. lia.
  - apply array_sort_Sorted. intros a b. rewrite !compare_by_index. lia.
Qed.

Lemma sortedBlogs_Permutation (s : Switcher) : sortedBlogs s ≡ₚ blogs s.
Proof. apply array_sort_Permutation. Qed.

(** C9. Whatever the blog collection, [sortedBlogs] holds the same blogs in
    ascending order of [index]: each blog's index is at most that of every
    blog after it. Once one blog's [index] has been set to a new value, the
    sequence computed anew is in ascending order of the new indices. *)
Theorem sortedBlogs_ascending (s : Switcher) :
  StronglySorted (by_index s) (sortedBlogs s) ∧
  sortedBlogs s ≡ₚ blogs s ∧
  ∀ (blog : ref) (v : Z),
    StronglySorted (by_index (set_blog_index blog v s))
                   (sortedBlogs (set_blog_index blog v s)) ∧
    sortedBlogs (set_blog_index blog v s) ≡ₚ blogs s.
Proof.
  split_and!; [apply sortedBlogs_Sorted|apply sortedBlogs_Permutation|].
  intros blog v. split; [apply sortedBlogs_Sorted|].
  apply (sortedBlogs_Permutation (set_blog_index blog v s)).
Qed.

Example sortedBlogs_after_set :
  sortedBlogs (sample [1; 2; 3]) = [1; 2; 3] ∧
  sortedBlogs (set_blog_index 1 5 (sample [1; 2; 3])) = [2; 3; 1].
Proof. vm_compute. by split. Qed.

Example sortedBlogs_ties_keep_order :
  sortedBlogs (set_blog_index 3 1 (sample [3; 2; 1])) = [3; 1; 2].
Proof. vm_compute. reflexivity. Qed.

(** * Further properties of the component *)

(** ** Store-backed operations, beyond the fetch miss *)

Ltac log_cases H :=
  repeat (apply elem_of_cons in H as [H|H]; [try discriminate H|]);
  try (by apply elem_of_nil in H).

(** X1. When the fetch of [changeBlogColor] resolves to a record, the calls
    made are the fetch, [randomIconColor] on that record and [save] on it, in
    this order and nothing else: the outcome of the save is not waited for
    and changes nothing. *)
Theorem changeBlogColor_existing (env : oracle) (id : jsval) (r : ref) :
  EvFindRecord "blog" id (Fulfilled (Some r)) ∈ trace env (changeBlogColor id) →
  trace env (changeBlogColor id) =
    [EvFindRecord "blog" id (Fulfilled (Some r)); EvRandomIconColor r;
     EvSave r (env _ (Save r))].
Proof.
  rewrite trace_changeBlogColor.
  destruct (truthy id); [|by intros ?%elem_of_nil].
  destruct (env _ (FindRecord "blog" id)) as [[r'|]| |] eqn:Hfetch;
    intros Hin; log_cases Hin.
  by simplify_eq.
Qed.

Lemma changeBlogColor_existing_witness :
  EvFindRecord "blog" (VStr "5") (Fulfilled (Some 5)) ∈
    trace (finds 5 Rejected) (changeBlogColor (VStr "5")) ∧
  trace (finds 5 Rejected) (changeBlogColor (VStr "5")) =
    [EvFindRecord "blog" (VStr "5") (Fulfilled (Some 5)); EvRandomIconColor 5;
     EvSave 5 Rejected].
Proof.
  split.
  - apply list_elem_of_here.
  - apply (changeBlogColor_existing (finds 5 Rejected) (VStr "5") 5).
    apply list_elem_of_here.
Defined.

(** X2. When the fetch of [editBlog] resolves to a record, the calls made are
    the fetch and then one [showEditBlog] notification carrying that very
    record, and nothing else. *)
Theorem editBlog_existing (env : oracle) (id : jsval) (r : ref) :
  EvFindRecord "blog" id (Fulfilled (Some r)) ∈ trace env (editBlog id) →
  trace env (editBlog id) =
    [EvFindRecord "blog" id (Fulfilled (Some r)); EvSendAction (showEditBlog r)].
Proof.
  rewrite trace_editBlog.
  destruct (truthy id); [|by intros ?%elem_of_nil].
  destruct (env _ (FindRecord "blog" id)) as [[r'|]| |] eqn:Hfetch;
    intros Hin; log_cases Hin.
  by simplify_eq.
Qed.

Lemma editBlog_existing_witness :
  EvFindRecord "blog" (VStr "5") (Fulfilled (Some 5)) ∈
    trace (finds 5 Pending) (editBlog (VStr "5")) ∧
  trace (finds 5 Pending) (editBlog (VStr "5")) =
    [EvFindRecord "blog" (VStr "5") (Fulfilled (Some 5)); EvSendAction (showEditBlog 5)].
Proof.
  split.
  - apply list_elem_of_here.
  - apply (editBlog_existing (finds 5 Pending) (VStr "5") 5).
    apply list_elem_of_here.
Defined.

(** X3. Whatever the id and whatever the store answers, [changeBlogColor]
    sends no notification and deletes nothing, [editBlog] makes no mutating
    store call, and [removeBlog] never recolors a blog. *)
Theorem operations_stay_in_role (env : oracle) (id : jsval) :
  Forall (λ e, notifies e = false ∧ is_delete e = false) (trace env (changeBlogColor id)) ∧
  Forall (λ e, mutates e = false) (trace env (editBlog id)) ∧
  Forall (λ e, is_recolor e = false) (trace env (removeBlog id)).
Proof.
  rewrite trace_changeBlogColor, trace_removeBlog, trace_editBlog.
  destruct (truthy id); [|by repeat split; constructor].
  destruct (env _ (FindRecord "blog" id)) as [[r|]| |];
    try (by repeat split; repeat constructor).
  destruct (env _ (Save r)); by repeat split; repeat constructor.
Qed.

(** X4. The three operations act on no record but the one the fetch resolved
    to: every store mutation and every edit notification they make is about
    the record returned by [findRecord] for the given id, which is then
    truthy. *)
Theorem operations_touch_fetched_record (env : oracle) (id : jsval) (e : entry) (r : ref) :
  e ∈ trace env (changeBlogColor id) ++ trace env (removeBlog id) ++ trace env (editBlog id) →
  record_of e = Some r →
  truthy id = true ∧ env _ (FindRecord "blog" id) = Fulfilled (Some r).
Proof.
  rewrite trace_changeBlogColor, trace_removeBlog, trace_editBlog.
  destruct (truthy id); [|by intros ?%elem_of_nil].
  destruct (env _ (FindRecord "blog" id)) as [[r'|]| |]; simpl.
  - destruct (env _ (Save r')); intros Hin Hrec; log_cases Hin;
      subst e; simpl in Hrec; by simplify_eq.
  - intros Hin Hrec; log_cases Hin; by subst e.
  - intros Hin Hrec; log_cases Hin; by subst e.
  - intros Hin Hrec; log_cases Hin; by subst e.
Qed.

Lemma operations_touch_fetched_record_witness :
  EvDeleteRecord 5 ∈
    trace (finds 5 Rejected) (changeBlogColor (VStr "5")) ++
    trace (finds 5 Rejected) (removeBlog (VStr "5")) ++
    trace (finds 5 Rejected) (editBlog (VStr "5")) ∧
  record_of (EvDeleteRecord 5) = Some 5 ∧
  truthy (VStr "5") = true ∧
  finds 5 Rejected _ (FindRecord "blog" (VStr "5")) = Fulfilled (Some 5).
Proof.
  assert (EvDeleteRecord 5 ∈
    trace (finds 5 Rejected) (changeBlogColor (VStr "5")) ++
    trace (finds 5 Rejected) (removeBlog (VStr "5")) ++
    trace (finds 5 Rejected) (editBlog (VStr "5"))) as Hin.
  { do 4 apply list_elem_of_further. apply list_elem_of_here. }
  split_and!; [exact Hin|reflexivity|..];
    apply (operations_touch_fetched_record (finds 5 Rejected) (VStr "5")
             (EvDeleteRecord 5) 5 Hin); reflexivity.
Defined.

(** ** Rendering again *)

Lemma off_on_off (ev : string) (h : handler) (ls : list (string * handler)) :
  event_type ev = ev → off ev (on ev h (off ev ls)) = off ev ls.
Proof.
  intros Hev. unfold off, on. rewrite filter_app, filter_cons_False, filter_nil, app_nil_r
    by (simpl; tauto).
  induction ls as [|l ls IH]; [done|].
  rewrite (filter_cons _ l ls). case_decide; [|done].
  by rewrite filter_cons_True, IH.
Qed.

Lemma bound_off_ne (ev ev' : string) (ls : list (string * handler)) :
  ev' ≠ ev → bound ev' (off ev ls) = bound ev' ls.
Proof.
  intros Hne. unfold bound, off.
  induction ls as [|l ls IH]; [done|].
  rewrite (filter_cons (λ l, event_type l.1 ≠ ev)),
    (filter_cons (λ l, event_type l.1 = ev') l ls).
  repeat case_decide; rewrite ?filter_cons_True, ?filter_cons_False by done;
    try congruence.
Qed.

Lemma bound_on_ne (ev ev' : string) (h : handler) (ls : list (string * handler)) :
  event_type ev = ev → ev' ≠ ev → bound ev' (on ev h ls) = bound ev' ls.
Proof.
  intros Hev Hne. unfold bound, on.
  rewrite filter_app, filter_cons_False, filter_nil, app_nil_r; [done|].
  simpl. congruence.
Qed.

Lemma run_didRender (env : oracle) (s : Switcher) :
  run env (didRender s) =
    ([EvBuildFromTemplate (editMenu_label <$> editMenu);
      EvAddQuickSwitchItemsToMenu SendShowPreferences (blogMenuItems s);
      EvInjectMenuItem
        {| menuName := "View"; md_click := SendToggle; md_name := "toggle-quick-switcher";
           md_label := "Toggle Quick Switcher"; md_accelerator := "CmdOrCtrl+Alt+Q";
           position := 2 |}],
     {| objects := objects s; blogs := blogs s; isMinimized := isMinimized s;
        listeners := on "contextmenu" (mkHandler VNull) (off "contextmenu" (listeners s)) |}).
Proof. reflexivity. Qed.

(** X5. Rendering is idempotent: a second [didRender] right after a first
    makes the same three calls with the same arguments (the context-menu
    template, the quick-switch items, the toggle entry) and leaves the
    component in the same state as the first did, so handlers do not pile up
    from render to render. *)
Theorem didRender_idempotent (env : oracle) (s : Switcher) :
  run env (didRender (result env (didRender s))) = run env (didRender s).
Proof.
  unfold result. rewrite !run_didRender. simpl.
  by rewrite off_on_off by apply event_type_contextmenu.
Qed.

(** X6. Binding the context menu unbinds the handlers of event type
    contextmenu, those bound under a namespace such as [contextmenu.tip]
    included, and no others: for every other event type the handlers bound
    under it, with or without a namespace, are the same, in the same order,
    after [_setupContextMenu], after [didRender] and after [reorderItems],
    and the one contextmenu handler left is the fresh one. *)
Theorem rebinding_keeps_other_events (env : oracle) (s : Switcher) (ev : string)
    (reorderedBogs : list ref) :
  event_type ev = ev → ev ≠ "contextmenu" →
  bound ev (listeners (result env (_setupContextMenu s))) = bound ev (listeners s) ∧
  bound ev (listeners (result env (didRender s))) = bound ev (listeners s) ∧
  bound ev (listeners (result env (actions.reorderItems reorderedBogs s))) =
    bound ev (listeners s) ∧
  bound "contextmenu" (listeners (result env (_setupContextMenu s))) =
    [("contextmenu", mkHandler VNull)].
Proof.
  intros Hev Hne.
  assert (bound ev (on "contextmenu" (mkHandler VNull) (off "contextmenu" (listeners s))) =
            bound ev (listeners s)) as Heq.
  { rewrite bound_on_ne by (apply event_type_contextmenu || done).
    by apply bound_off_ne. }
  split_and!; [done..|].
  apply (bound_on_off "contextmenu"), event_type_contextmenu.
Qed.

Lemma rebinding_keeps_other_events_witness :
  event_type "click" = "click" ∧ "click" ≠ "contextmenu" ∧
  bound "click" (listeners (result quiet (_setupContextMenu (sample_bound [1])))) =
    bound "click" (listeners (sample_bound [1])) ∧
  bound "click" (listeners (result quiet (didRender (sample_bound [1])))) =
    bound "click" (listeners (sample_bound [1])) ∧
  bound "click" (listeners (result quiet (actions.reorderItems [1] (sample_bound [1])))) =
    bound "click" (listeners (sample_bound [1])) ∧
  bound "contextmenu" (listeners (result quiet (_setupContextMenu (sample_bound [1])))) =
    [("contextmenu", mkHandler VNull)].
Proof.
  split; [vm_compute; reflexivity|]. split; [discriminate|].
  apply (rebinding_keeps_other_events quiet (sample_bound [1]) "click" [1]);
    [vm_compute; reflexivity|discriminate].
Defined.

Example event_types :
  event_type "contextmenu.tip" = "contextmenu" ∧ event_type "click.menu.a" = "click" ∧
  event_type "click" = "click".
Proof. vm_compute. by repeat split. Qed.

Example sample_bound_rebound :
  listeners (result quiet (didRender (sample_bound [1]))) =
    [("click", mkHandler (VStr "a")); ("click.menu", mkHandler (VStr "b"));
     ("contextmenu", mkHandler VNull)].
Proof. vm_compute. reflexivity. Qed.

Example namespaced_handler_runs :
  popups (trace quiet (rightClick (switch_button "3" None) (sample_bound [1]))) = 3.
Proof. vm_compute. reflexivity. Qed.

(** ** Reordering and the sorted sequence *)

Lemma forEach_set_index_fields (k : nat) (reorderedBogs : list ref) (o : ref → Blog)
    (blog : ref) :
  blog_id (forEach_set_index k reorderedBogs o blog) = blog_id (o blog) ∧
  name (forEach_set_index k reorderedBogs o blog) = name (o blog) ∧
  iconColor (forEach_set_index k reorderedBogs o blog) = iconColor (o blog).
Proof.
  revert k o. induction reorderedBogs as [|x rest IH]; intros k o; [done|].
  simpl. destruct (IH (S k) (alter (set_index (Z.of_nat k)) x o)) as (-> & -> & ->).
  destruct (decide (x = blog)) as [->|Hne].
  - by rewrite fn_lookup_alter.
  - by rewrite fn_lookup_alter_ne.
Qed.

Lemma forEach_set_index_NoDup (k i : nat) (reorderedBogs : list ref) (o : ref → Blog)
    (blog : ref) :
  NoDup reorderedBogs → reorderedBogs !! i = Some blog →
  index (forEach_set_index k reorderedBogs o blog) = Z.of_nat (k + i).
Proof.
  intros Hnodup Hi. rewrite (forEach_set_index_last k i); [done..|].
  intros Hin. apply list_elem_of_lookup in Hin as [j Hj].
  rewrite lookup_drop in Hj.
  pose proof (NoDup_lookup _ _ _ _ Hnodup Hi Hj). lia.
Qed.

Lemma StronglySorted_by_position {A : Type} (R : relation A) (l : list A) :
  (∀ i j x y, l !! i = Some x → l !! j = Some y → i < j → R x y) →
  StronglySorted R l.
Proof.
  induction l as [|a l IH]; intros Hpos; constructor.
  - apply IH. intros i j x y Hi Hj Hlt. apply (Hpos (S i) (S j)); [done..|lia].
  - apply Forall_lookup. intros j y Hj. apply (Hpos 0 (S j)); [done..|lia].
Qed.

Lemma sortedBlogs_reordered (o : ref → Blog) (bs reorderedBogs : list ref) (m : bool)
    (ls : list (string * handler)) :
  NoDup reorderedBogs → reorderedBogs ≡ₚ bs →
  sortedBlogs {| objects := forEach_set_index 0 reorderedBogs o; blogs := bs;
                 isMinimized := m; listeners := ls |} = reorderedBogs.
Proof.
  intros Hnodup Hperm.
  set (s' := {| objects := forEach_set_index 0 reorderedBogs o; blogs := bs;
                isMinimized := m; listeners := ls |}).
  assert (∀ i x, reorderedBogs !! i = Some x → index (objects s' x) = Z.of_nat i) as Hidx.
  { intros i x Hi. simpl. by rewrite (forEach_set_index_NoDup 0 i). }
  apply (StronglySorted_unique_strong (by_index s')).
  - intros x1 x2 Hx1 Hx2 H12 H21.
    rewrite sortedBlogs_Permutation in Hx1. simpl in Hx1. rewrite <-Hperm in Hx1.
    apply list_elem_of_lookup in Hx1 as [i1 Hi1].
    apply list_elem_of_lookup in Hx2 as [i2 Hi2].
    unfold by_index in H12, H21.
    rewrite (Hidx _ _ Hi1), (Hidx _ _ Hi2) in H12, H21.
    assert (i1 = i2) as -> by lia. congruence.
  - apply sortedBlogs_Sorted.
  - apply StronglySorted_by_position. intros i j x y Hi Hj Hlt.
    unfold by_index. rewrite (Hidx _ _ Hi), (Hidx _ _ Hj). lia.
  - by rewrite sortedBlogs_Permutation, Hperm.
Qed.

(** X7. Reordering and sorting agree: when [reorderItems] is given the
    component's blogs in a new order, each blog once, the [sortedBlogs]
    sequence computed afterwards is that new order. *)
Theorem reorderItems_then_sortedBlogs (env : oracle) (reorderedBogs : list ref)
    (s : Switcher) :
  NoDup reorderedBogs → reorderedBogs ≡ₚ blogs s →
  sortedBlogs (result env (actions.reorderItems reorderedBogs s)) = reorderedBogs.
Proof. intros Hnodup Hperm. by apply sortedBlogs_reordered. Qed.

Lemma reorderItems_then_sortedBlogs_witness :
  NoDup [3; 1; 2] ∧ [3; 1; 2] ≡ₚ blogs (sample [1; 2; 3]) ∧
  sortedBlogs (result quiet (actions.reorderItems [3; 1; 2] (sample [1; 2; 3]))) = [3; 1; 2].
Proof.
  assert (NoDup [3; 1; 2]) as Hnodup
    by (apply (bool_decide_unpack (NoDup [3; 1; 2])); reflexivity).
  assert ([3; 1; 2] ≡ₚ blogs (sample [1; 2; 3])) as Hperm
    by exact (Permutation_cons_append [1; 2] 3).
  split_and!; [exact Hnodup|exact Hperm|].
  apply (reorderItems_then_sortedBlogs quiet [3; 1; 2] (sample [1; 2; 3]) Hnodup Hperm).
Defined.

Lemma run_reorderItems (env : oracle) (reorderedBogs : list ref) (s : Switcher) :
  run env (actions.reorderItems reorderedBogs s) =
    run env (didRender
               {| objects := forEach_set_index 0 reorderedBogs (objects s);
                  blogs := blogs s; isMinimized := isMinimized s;
                  listeners := listeners s |}).
Proof. reflexivity. Qed.

(** X8. After a reorder the menu follows at once: when [reorderItems] is
    given the component's blogs in a new order, each blog once, the calls it
    makes are the three binders' calls, and the quick-switch items it
    registers are the separator followed by the first eight blogs of the new
    order, entry [i] with accelerator [CmdOrCtrl+(i+1)] and the blog's
    unchanged name. *)
Theorem reorderItems_menu (env : oracle) (reorderedBogs : list ref) (s : Switcher) :
  NoDup reorderedBogs → reorderedBogs ≡ₚ blogs s →
  trace env (actions.reorderItems reorderedBogs s) =
    [EvBuildFromTemplate (editMenu_label <$> editMenu);
     EvAddQuickSwitchItemsToMenu SendShowPreferences
       (Separator ::
        imap (λ i blog, Item ("CmdOrCtrl+" +:+ pretty (i + 1)) (SendSwitchToBlog blog)
                             (VStr (name (objects s blog))))
             (take 8 reorderedBogs));
     EvInjectMenuItem
       {| menuName := "View"; md_click := SendToggle; md_name := "toggle-quick-switcher";
          md_label := "Toggle Quick Switcher"; md_accelerator := "CmdOrCtrl+Alt+Q";
          position := 2 |}].
Proof.
  intros Hnodup Hperm. unfold trace.
  rewrite run_reorderItems, run_didRender. simpl.
  unfold blogMenuItems. rewrite sortedBlogs_reordered by done. simpl.
  do 4 f_equal. apply imap_ext. intros i blog _. simpl.
  rewrite get_name.
  by destruct (forEach_set_index_fields 0 reorderedBogs (objects s) blog) as (_ & -> & _).
Qed.

Lemma reorderItems_menu_witness :
  NoDup [3; 1; 2] ∧ [3; 1; 2] ≡ₚ blogs (sample [1; 2; 3]) ∧
  trace quiet (actions.reorderItems [3; 1; 2] (sample [1; 2; 3])) =
    [EvBuildFromTemplate (editMenu_label <$> editMenu);
     EvAddQuickSwitchItemsToMenu SendShowPreferences
       (Separator ::
        imap (λ i blog, Item ("CmdOrCtrl+" +:+ pretty (i + 1)) (SendSwitchToBlog blog)
                             (VStr (name (objects (sample [1; 2; 3]) blog))))
             (take 8 [3; 1; 2]));
     EvInjectMenuItem
       {| menuName := "View"; md_click := SendToggle; md_name := "toggle-quick-switcher";
          md_label := "Toggle Quick Switcher"; md_accelerator := "CmdOrCtrl+Alt+Q";
          position := 2 |}].
Proof.
  assert (NoDup [3; 1; 2]) as Hnodup
    by (apply (bool_decide_unpack (NoDup [3; 1; 2])); reflexivity).
  assert ([3; 1; 2] ≡ₚ blogs (sample [1; 2; 3])) as Hperm
    by exact (Permutation_cons_append [1; 2] 3).
  split_and!; [exact Hnodup|exact Hperm|].
  apply (reorderItems_menu quiet [3; 1; 2] (sample [1; 2; 3]) Hnodup Hperm).
Defined.

(** X9. [reorderItems] writes indices and nothing else: a blog that is not
    in the sequence keeps its whole record, its old index included; every
    blog keeps its id, name and icon color; and the component's blog list and
    minimized flag are unchanged. *)
Theorem reorderItems_frame (env : oracle) (reorderedBogs : list ref) (s : Switcher)
    (blog : ref) :
  (blog ∉ reorderedBogs →
     objects (result env (actions.reorderItems reorderedBogs s)) blog = objects s blog) ∧
  blog_id (objects (result env (actions.reorderItems reorderedBogs s)) blog) =
    blog_id (objects s blog) ∧
  name (objects (result env (actions.reorderItems reorderedBogs s)) blog) =
    name (objects s blog) ∧
  iconColor (objects (result env (actions.reorderItems reorderedBogs s)) blog) =
    iconColor (objects s blog) ∧
  blogs (result env (actions.reorderItems reorderedBogs s)) = blogs s ∧
  isMinimized (result env (actions.reorderItems reorderedBogs s)) = isMinimized s.
Proof.
  rewrite reorderItems_objects.
  destruct (forEach_set_index_fields 0 reorderedBogs (objects s) blog) as (Hid & Hname & Hcol).
  split_and!; try done.
  intros Hnotin. by apply forEach_set_index_notin.
Qed.

Lemma reorderItems_frame_witness :
  (4 ∉ [3; 1; 2]) ∧
  objects (result quiet (actions.reorderItems [3; 1; 2] (sample [1; 2; 3; 4]))) 4 =
    objects (sample [1; 2; 3; 4]) 4.
Proof.
  assert (4 ∉ [3; 1; 2]) as Hnotin
    by (apply (bool_decide_eq_false_1 (4 ∈ [3; 1; 2])); reflexivity).
  split; [exact Hnotin|].
  apply (proj1 (reorderItems_frame quiet [3; 1; 2] (sample [1; 2; 3; 4]) 4)).
  exact Hnotin.
Defined.

Example partial_reorder_collides :
  let s' := result quiet (actions.reorderItems [3; 2] (sample [1; 2; 3])) in
  index (objects s' 3) = 0%Z ∧ index (objects s' 2) = 1%Z ∧ index (objects s' 1) = 1%Z ∧
  sortedBlogs s' = [3; 1; 2].
Proof. vm_compute. by repeat split. Qed.

(** ** The registered quick-switch items *)

Lemma blogMenuItems_lookup (s : Switcher) (i : nat) :
  blogMenuItems s !! S i =
    (λ blog, Item ("CmdOrCtrl+" +:+ pretty (i + 1)) (SendSwitchToBlog blog)
                  (VStr (name (objects s blog)))) <$> take 8 (sortedBlogs s) !! i.
Proof.
  unfold blogMenuItems. simpl. rewrite list_lookup_imap.
  destruct (take 8 (sortedBlogs s) !! i); simpl; [|done].
  by rewrite get_name.
Qed.

(** X10. Label and click of a quick-switch entry agree: for every entry of
    the registered list, it stands at position [i+1] for some [i < 8], its
    label is the name of the [i]-th sorted blog, and firing its click sends
    the parent exactly one [switchToBlog] for that same blog and changes
    nothing in the component; firing the show-preferences callback registered
    with the list sends exactly one [showPreferences]. *)
Theorem quickSwitch_click (env : oracle) (s : Switcher) (i : nat) (a : string)
    (cb : callback) (l : jsval) :
  blogMenuItems s !! S i = Some (Item a cb l) →
  (∃ blog, i < 8 ∧ sortedBlogs s !! i = Some blog ∧
           l = VStr (name (objects s blog)) ∧
           run env (send cb s) = ([EvSendAction (switchToBlog blog)], s)) ∧
  run env (send SendShowPreferences s) = ([EvSendAction showPreferences], s).
Proof.
  rewrite blogMenuItems_lookup. intros Hitem. split; [|done].
  destruct (take 8 (sortedBlogs s) !! i) as [blog|] eqn:Hblog; [|done].
  apply lookup_take_Some in Hblog as [Hblog Hi].
  simpl in Hitem. simplify_eq. by exists blog.
Qed.

Lemma quickSwitch_click_witness :
  blogMenuItems (sample [2; 1]) !! 2 =
    Some (Item "CmdOrCtrl+2" (SendSwitchToBlog 2) (VStr "blog 2")) ∧
  ∃ blog, 1 < 8 ∧ sortedBlogs (sample [2; 1]) !! 1 = Some blog ∧
          VStr "blog 2" = VStr (name (objects (sample [2; 1]) blog)) ∧
          run quiet (send (SendSwitchToBlog 2) (sample [2; 1])) =
            ([EvSendAction (switchToBlog blog)], sample [2; 1]).
Proof.
  split; [vm_compute; reflexivity|].
  apply (proj1 (quickSwitch_click quiet (sample [2; 1]) 1 "CmdOrCtrl+2"
                  (SendSwitchToBlog 2) (VStr "blog 2") ltac:(vm_compute; reflexivity))).
Defined.

Lemma omap_imap_Some {A B C : Type} (h : B → option C) (f : nat → A → B)
    (g : nat → A → C) (l : list A) :
  (∀ i x, h (f i x) = Some (g i x)) → omap h (imap f l) = imap g l.
Proof.
  revert f g. induction l as [|x l IH]; intros f g Hfg; [done|].
  rewrite !imap_cons. simpl. rewrite Hfg. f_equal. apply IH. intros i y. apply Hfg.
Qed.

Lemma shortcuts_blogMenuItems (s : Switcher) :
  shortcuts (blogMenuItems s) =
    imap (λ i _, "CmdOrCtrl+" +:+ pretty (i + 1)) (take 8 (sortedBlogs s)).
Proof.
  unfold shortcuts, blogMenuItems. simpl. by apply omap_imap_Some.
Qed.

(** X11. No two entries of the registered quick-switch list share a
    shortcut: the accelerators bound by [_setupQuickSwitch] are pairwise
    distinct, whatever the blogs and their names. *)
Theorem quickSwitch_shortcuts_distinct (s : Switcher) :
  NoDup (shortcuts (blogMenuItems s)) ∧
  length (shortcuts (blogMenuItems s)) = length (sortedBlogs s) `min` 8.
Proof.
  rewrite shortcuts_blogMenuItems, length_imap, length_take. split; [|lia].
  apply NoDup_alt. intros i j a.
  rewrite !list_lookup_imap.
  destruct (take 8 (sortedBlogs s) !! i), (take 8 (sortedBlogs s) !! j);
    simpl; try done.
  intros Hi Hj. rewrite <-Hj in Hi. simplify_eq. lia.
Qed.

(** X12. Blogs beyond the eighth get no shortcut: when the component's
    blogs are distinct, no entry of the registered list switches to a blog
    that stands at sorted position 8 or later. *)
Theorem quickSwitch_ninth_unbound (s : Switcher) (i : nat) (blog : ref) (a : string)
    (l : jsval) :
  NoDup (blogs s) → sortedBlogs s !! i = Some blog → 8 ≤ i →
  Item a (SendSwitchToBlog blog) l ∉ blogMenuItems s.
Proof.
  intros Hnodup Hblog Hi Hin.
  apply list_elem_of_lookup in Hin as [[|j] Hj]; [done|].
  rewrite blogMenuItems_lookup in Hj.
  destruct (take 8 (sortedBlogs s) !! j) as [blog'|] eqn:Hblog'; [|done].
  apply lookup_take_Some in Hblog' as [Hblog' Hj8].
  simpl in Hj. simplify_eq.
  assert (NoDup (sortedBlogs s)) as Hsorted by (by rewrite sortedBlogs_Permutation).
  pose proof (NoDup_lookup _ _ _ _ Hsorted Hblog Hblog'). lia.
Qed.

Lemma quickSwitch_ninth_unbound_witness :
  NoDup (blogs (sample (seq 0 10))) ∧ sortedBlogs (sample (seq 0 10)) !! 8 = Some 8 ∧
  8 ≤ 8 ∧ Item "CmdOrCtrl+9" (SendSwitchToBlog 8) (VStr "blog 8") ∉
            blogMenuItems (sample (seq 0 10)).
Proof.
  assert (NoDup (blogs (sample (seq 0 10)))) as Hnodup by apply NoDup_seq.
  assert (sortedBlogs (sample (seq 0 10)) !! 8 = Some 8) as Hblog
    by (vm_compute; reflexivity).
  split_and!; [exact Hnodup|exact Hblog|lia|].
  apply (quickSwitch_ninth_unbound (sample (seq 0 10)) 8 8 "CmdOrCtrl+9" (VStr "blog 8")
           Hnodup Hblog).
  lia.
Defined.

(** ** From a right-click to the action *)

Lemma result_on_contextmenu (env : oracle) (target a : node) (h : handler) (b : string) :
  nearest carries_blog_id target = Some a → blog_attr a = Some b →
  run env (on_contextmenu target h) =
    ([EvPreventDefault; EvStopPropagation; EvPopup (VStr b)], mkHandler (VStr b)) ∧
  truthy (VStr b) = true.
Proof.
  intros Ha Hb. rewrite run_on_contextmenu, Ha, Hb. split; [done|].
  apply nearest_Some in Ha as [(_ & b' & Hb' & Hne)%carries_blog_id_attr _].
  simplify_eq. by apply bool_decide_eq_true.
Qed.

(** X13. The menu acts on the blog last right-clicked: after a right-click
    whose nearest switch button carries blog id [b], whatever was selected
    before, the click of Edit Blog is [editBlog(b)], that of Remove Blog is
    [removeBlog(b)] and that of New Icon Color is [changeBlogColor(b)]; each
    starts by fetching the blog of id [b] from the store. *)
Theorem contextmenu_then_click (env : oracle) (target a : node) (h : handler)
    (b : string) (m : editMenuItem) :
  nearest carries_blog_id target = Some a → blog_attr a = Some b →
  editMenu_click m (result env (on_contextmenu target h)) =
    match m with
    | EditBlog => editBlog (VStr b)
    | RemoveBlog => removeBlog (VStr b)
    | NewIconColor => changeBlogColor (VStr b)
    end ∧
  head (trace env (editMenu_click m (result env (on_contextmenu target h)))) =
    Some (EvFindRecord "blog" (VStr b) (env _ (FindRecord "blog" (VStr b)))).
Proof.
  intros Ha Hb. destruct (result_on_contextmenu env target a h b Ha Hb) as [Hrun Hb'].
  unfold result. rewrite Hrun. unfold editMenu_click. simpl selectedBlog.
  rewrite Hb'. split; [done|].
  destruct m; rewrite ?trace_editBlog, ?trace_removeBlog, ?trace_changeBlogColor, Hb';
    done.
Qed.

Lemma contextmenu_then_click_witness :
  nearest carries_blog_id (icon (Some (switch_button "42" (Some document)))) =
    Some (switch_button "42" (Some document)) ∧
  blog_attr (switch_button "42" (Some document)) = Some "42" ∧
  editMenu_click RemoveBlog
    (result (finds 3 (Fulfilled ()))
       (on_contextmenu (icon (Some (switch_button "42" (Some document))))
                       (mkHandler (VStr "7")))) = removeBlog (VStr "42") ∧
  head (trace (finds 3 (Fulfilled ()))
          (editMenu_click RemoveBlog
             (result (finds 3 (Fulfilled ()))
                (on_contextmenu (icon (Some (switch_button "42" (Some document))))
                                (mkHandler (VStr "7")))))) =
    Some (EvFindRecord "blog" (VStr "42") (Fulfilled (Some 3))).
Proof.
  split; [vm_compute; reflexivity|]. split; [vm_compute; reflexivity|].
  apply (contextmenu_then_click (finds 3 (Fulfilled ()))
           (icon (Some (switch_button "42" (Some document))))
           (switch_button "42" (Some document)) (mkHandler (VStr "7")) "42" RemoveBlog);
    vm_compute; reflexivity.
Defined.

Example rightClick_then_remove :
  trace (finds 3 (Fulfilled ()))
    (editMenu_click RemoveBlog
       (result (finds 3 (Fulfilled ()))
          (on_contextmenu (switch_button "42" None) (mkHandler VNull)))) =
    [EvFindRecord "blog" (VStr "42") (Fulfilled (Some 3)); EvDeleteRecord 3;
     EvSave 3 (Fulfilled ()); EvSendAction blogRemoved].
Proof. vm_compute. reflexivity. Qed.

Lemma dispatch_cons (ev ev' : string) (target : node) (h : handler)
    (ls : list (string * handler)) :
  dispatch ev target ((ev', h) :: ls) =
    (if decide (event_type ev' = ev) then on_contextmenu target h else mret h) ≫= λ h',
    dispatch ev target ls ≫= λ rest, mret ((ev', h') :: rest).
Proof. reflexivity. Qed.

Lemma run_ret {A : Type} (env : oracle) (a : A) : run env (mret a) = ([], a).
Proof. reflexivity. Qed.

Lemma run_dispatch_app (env : oracle) (ev : string) (target : node)
    (l1 l2 : list (string * handler)) :
  run env (dispatch ev target (l1 ++ l2)) =
    ((run env (dispatch ev target l1)).1 ++ (run env (dispatch ev target l2)).1,
     (run env (dispatch ev target l1)).2 ++ (run env (dispatch ev target l2)).2).
Proof.
  induction l1 as [|[ev' h] l1 IH].
  - simpl. by destruct (run env (dispatch ev target l2)).
  - rewrite <-app_comm_cons, !dispatch_cons, !run_bind, IH, !run_ret. simpl.
    by rewrite !app_nil_r, <-!app_assoc.
Qed.

Lemma run_dispatch_off (env : oracle) (ev : string) (target : node)
    (ls : list (string * handler)) :
  run env (dispatch ev target (off ev ls)) = ([], off ev ls).
Proof.
  unfold off. induction ls as [|[ev' h] ls IH]; [done|].
  rewrite filter_cons. simpl. case_decide as Hne; [|done].
  rewrite dispatch_cons, !run_bind, IH, decide_False by done. by rewrite !run_ret.
Qed.

Lemma run_rightClick (env : oracle) (target : node) (s : Switcher) :
  run env (rightClick target s) =
    ((run env (dispatch "contextmenu" target (listeners s))).1,
     {| objects := objects s; blogs := blogs s; isMinimized := isMinimized s;
        listeners := (run env (dispatch "contextmenu" target (listeners s))).2 |}).
Proof. unfold rightClick. rewrite run_bind, run_ret. simpl. by rewrite app_nil_r. Qed.

(** X14. A render followed by a right-click inside a switch button: the one
    contextmenu handler bound by the render runs once, the default menu is
    suppressed, one popup is shown, and that handler then holds the id of the
    nearest button, while the component's blogs and flag are untouched. *)
Theorem didRender_then_rightClick (env : oracle) (s : Switcher) (target a : node)
    (b : string) :
  nearest carries_blog_id target = Some a → blog_attr a = Some b →
  trace env (rightClick target (result env (didRender s))) =
    [EvPreventDefault; EvStopPropagation; EvPopup (VStr b)] ∧
  bound "contextmenu"
    (listeners (result env (rightClick target (result env (didRender s))))) =
    [("contextmenu", mkHandler (VStr b))] ∧
  blogs (result env (rightClick target (result env (didRender s)))) = blogs s ∧
  isMinimized (result env (rightClick target (result env (didRender s)))) = isMinimized s.
Proof.
  intros Ha Hb.
  destruct (result_on_contextmenu env target a (mkHandler VNull) b Ha Hb) as [Hrun _].
  set (s1 := result env (didRender s)).
  assert (run env (dispatch "contextmenu" target (listeners s1)) =
            ([EvPreventDefault; EvStopPropagation; EvPopup (VStr b)],
             on "contextmenu" (mkHandler (VStr b)) (off "contextmenu" (listeners s))))
    as Hdispatch.
  { subst s1. unfold result. rewrite run_didRender. simpl listeners. unfold on.
    rewrite run_dispatch_app, run_dispatch_off, dispatch_cons.
    rewrite decide_True, !run_bind, Hrun by done. done. }
  unfold trace, result. rewrite run_rightClick, Hdispatch. simpl.
  split_and!; try done.
  apply bound_on_off, event_type_contextmenu.
Qed.

Lemma didRender_then_rightClick_witness :
  nearest carries_blog_id (icon (Some (switch_button "42" (Some document)))) =
    Some (switch_button "42" (Some document)) ∧
  blog_attr (switch_button "42" (Some document)) = Some "42" ∧
  trace quiet (rightClick (icon (Some (switch_button "42" (Some document))))
                          (result quiet (didRender (sample_bound [1; 2])))) =
    [EvPreventDefault; EvStopPropagation; EvPopup (VStr "42")].
Proof.
  split; [vm_compute; reflexivity|]. split; [vm_compute; reflexivity|].
  apply (didRender_then_rightClick quiet (sample_bound [1; 2])
           (icon (Some (switch_button "42" (Some document))))
           (switch_button "42" (Some document)) "42");
    vm_compute; reflexivity.
Defined.

(** ** What the order depends on *)

Lemma sort_insert_ext {A : Type} (cmp1 cmp2 : A → A → Z) (x : A) (l : list A) :
  (∀ y, y ∈ l → cmp1 x y = cmp2 x y) → sort_insert cmp1 x l = sort_insert cmp2 x l.
Proof.
  induction l as [|y l IH]; intros Hext; [done|]. simpl.
  rewrite (Hext y) by left.
  case_decide; [done|]. f_equal. apply IH. intros z Hz. apply Hext. by right.
Qed.

Lemma array_sort_ext {A : Type} (cmp1 cmp2 : A → A → Z) (l : list A) :
  (∀ x y, x ∈ l → y ∈ l → cmp1 x y = cmp2 x y) → array_sort cmp1 l = array_sort cmp2 l.
Proof.
  induction l as [|x l IH]; intros Hext; [done|]. simpl.
  rewrite IH by (intros y z Hy Hz; apply Hext; by right).
  apply sort_insert_ext. intros y Hy. apply Hext; [left|right].
  by rewrite (array_sort_Permutation cmp2 l) in Hy.
Qed.

(** X15. The order depends on the indices alone: two states of the
    component with the same blog list in which every listed blog has the same
    index give the same [sortedBlogs], whatever else differs in the blogs
    (name, icon color), in the flag or in the bound handlers. *)
Theorem sortedBlogs_index_only (s s' : Switcher) :
  blogs s' = blogs s →
  (∀ blog, blog ∈ blogs s → index (objects s' blog) = index (objects s blog)) →
  sortedBlogs s' = sortedBlogs s.
Proof.
  intros Hblogs Hindex. unfold sortedBlogs. rewrite Hblogs.
  apply array_sort_ext. intros x y Hx Hy.
  by rewrite !compare_by_index, (Hindex x), (Hindex y).
Qed.

Lemma sortedBlogs_index_only_witness :
  blogs (sample_renamed [3; 1; 2]) = blogs (sample [3; 1; 2]) ∧
  sortedBlogs (sample_renamed [3; 1; 2]) = sortedBlogs (sample [3; 1; 2]).
Proof.
  split; [reflexivity|].
  apply (sortedBlogs_index_only (sample [3; 1; 2]) (sample_renamed [3; 1; 2]));
    [reflexivity|].
  intros blog _. reflexivity.
Defined.

(** ** The fetch *)

(** X16. For a truthy id each of [changeBlogColor], [removeBlog] and
    [editBlog] begins with [findRecord('blog', id)] for that very id and never
    fetches again, whatever the store answers. *)
Theorem truthy_id_one_fetch (env : oracle) (id : jsval) :
  truthy id = true →
  ∀ op, op ∈ [changeBlogColor; removeBlog; editBlog] →
    ∃ rest,
      trace env (op id) = EvFindRecord "blog" id (env _ (FindRecord "blog" id)) :: rest ∧
      Forall (λ e, is_fetch e = false) rest.
Proof.
  intros Htruthy op Hop.
  repeat (apply elem_of_cons in Hop as [->|Hop]); [..|by apply elem_of_nil in Hop].
  - rewrite trace_changeBlogColor, Htruthy. eexists. split; [done|].
    destruct (env _ (FindRecord "blog" id)) as [[r|]| |]; by repeat constructor.
  - rewrite trace_removeBlog, Htruthy. eexists. split; [done|].
    destruct (env _ (FindRecord "blog" id)) as [[r|]| |]; try by repeat constructor.
    destruct (env _ (Save r)); by repeat constructor.
  - rewrite trace_editBlog, Htruthy. eexists. split; [done|].
    destruct (env _ (FindRecord "blog" id)) as [[r|]| |]; by repeat constructor.
Qed.

Lemma truthy_id_one_fetch_witness :
  truthy (VStr "5") = true ∧ removeBlog ∈ [changeBlogColor; removeBlog; editBlog] ∧
  ∃ rest,
    trace (finds 5 (Fulfilled ())) (removeBlog (VStr "5")) =
      EvFindRecord "blog" (VStr "5")
        (finds 5 (Fulfilled ()) _ (FindRecord "blog" (VStr "5"))) :: rest ∧
    Forall (λ e, is_fetch e = false) rest.
Proof.
  assert (removeBlog ∈ [changeBlogColor; removeBlog; editBlog]) as Hop
    by (apply list_elem_of_further, list_elem_of_here).
  split_and!; [reflexivity|exact Hop|].
  apply (truthy_id_one_fetch (finds 5 (Fulfilled ())) (VStr "5") eq_refl removeBlog Hop).
Defined.
